(** * The embedding service of kita, [embedding_service/main.py]

    The service is a FastAPI application with three endpoints ([/embed],
    [/search], [/add_file]) in front of two collaborators it imports: a
    sentence-embedding model and an [hnswlib] vector index persisted in
    [vector_index.bin].  The endpoints are embedded as functions of a small
    state-and-exception monad; the two collaborators are interfaces. *)

From stdpp Require Import base option list gmap strings.
From Stdlib Require Import ZArith.

Set Warnings "-abstract-large-number".
Open Scope Z_scope.

(** ** The pydantic request and response models (lines 10-25, 64-66) *)

Module EmbedRequest.
Record t := mk { text : string }.
End EmbedRequest.

Module EmbedResponse.
Record t (float : Type) := mk { embedding : list float }.
Arguments mk {float} _.
Arguments embedding {float} _.
End EmbedResponse.

Module SearchRequest.
Record t := mk { query : string; k : Z }.
(** [k: int = 5]: the value pydantic fills in when the request omits it. *)
Definition default_k : Z := 5.
Definition of_query (q : string) : t := mk q default_k.
End SearchRequest.

Module SearchResult.
Record t (float : Type) := mk { file_id : Z; distance : float }.
Arguments mk {float} _ _.
Arguments file_id {float} _.
Arguments distance {float} _.
End SearchResult.

Module SearchResponse.
Record t (float : Type) := mk { results : list (SearchResult.t float) }.
Arguments mk {float} _.
Arguments results {float} _.
End SearchResponse.

Module FileData.
Record t (float : Type) := mk { file_id : Z; embedding : list float }.
Arguments mk {float} _ _.
Arguments file_id {float} _.
Arguments embedding {float} _.
End FileData.

(** ** Configuration (lines 28-29, 32, 36, 40-41) *)

Definition INDEX_PATH : string := "vector_index.bin"%string.
Definition max_elements : nat := 10000.
Definition MODEL_NAME : string := "all-MiniLm-L6-v2"%string.
Definition SPACE : string := "cosine"%string.
Definition EF_CONSTRUCTION : nat := 200.
Definition M_LINKS : nat := 16.
Definition EF_RUNTIME : nat := 50.

(** ** The collaborators

    [SentenceTransformer]: what [main.py] uses of the embedding model,
    [model.encode(text)] and [model.get_sentence_embedding_dimension()]. *)
Class SentenceTransformer (float : Type) := {
  model_encode : string -> list float;
  get_sentence_embedding_dimension : nat
}.

(** [HnswIndex]: what [main.py] uses of [hnswlib.Index].  A method that
    mutates the index returns the index it leaves behind together with its
    outcome, the error of type [E] being the exception the library raised.
    [main.py] always passes one vector ([np.array([v])]) and reads row 0 of
    the answer, so [knn_query] and [add_items] are given for that one row.
    [load_index] is handed the bytes it reads.  [save_index] opens its path
    for writing and hands no failure of the write back to its caller: it is
    given what the file holds (or that there is none) and yields what the
    file holds when the call returns, which may be the whole index, a part
    of it, or what was there before. *)
Class HnswIndex (float E Index Blob : Type) := {
  Index_new : string -> nat -> Index;
  load_index : Blob -> Index -> (E + unit) * Index;
  init_index : nat -> nat -> nat -> Index -> (E + unit) * Index;
  set_ef : nat -> Index -> Index;
  knn_query : list float -> Z -> Index -> E + (list Z * list float);
  add_items : list float -> Z -> Index -> (E + unit) * Index;
  save_index : Index -> option Blob -> option Blob
}.

(** ** Exceptions and the service state *)

(** What an endpoint can raise: the [HTTPException] of [main.py] itself, or
    whatever the index library raised (FastAPI turns it into a 500). *)
Inductive exn (E : Type) :=
  | HTTPException (status_code : Z) (detail : string)
  | LibraryError (e : E).
Arguments HTTPException {E} _ _.
Arguments LibraryError {E} _.

(** The module-level state: the global [index], the files on disk, and the
    texts handed to [model.encode] so far (oldest first). *)
Record Service (Index Blob : Type) := mkService {
  index : Index;
  disk : gmap string Blob;
  encoded : list string
}.
Arguments mkService {Index Blob} _ _ _.
Arguments index {Index Blob} _.
Arguments disk {Index Blob} _.
Arguments encoded {Index Blob} _.

Section Endpoints.
Context {float E Index Blob : Type}.
Context {model : SentenceTransformer float}.
Context {hnsw : HnswIndex float E Index Blob}.

Abbreviation State := (Service Index Blob).

(** An endpoint body: it runs on the state and either returns or raises,
    leaving a state behind in both cases. *)
Definition Handler (A : Type) : Type := State -> (exn E + A) * State.

Definition ret {A} (a : A) : Handler A := fun st => (inr a, st).
Definition raise {A} (e : exn E) : Handler A := fun st => (inl e, st).
Definition bind {A B} (m : Handler A) (f : A -> Handler B) : Handler B :=
  fun st => match m st with
            | (inl e, st') => (inl e, st')
            | (inr a, st') => f a st'
            end.

Notation "x <- m ;; f" := (bind m (fun x => f))
  (at level 100, m at next level, right associativity).
Notation "m ;;; f" := (bind m (fun _ => f))
  (at level 100, f at level 200, right associativity).

(** [model.encode(text)]: the call is recorded in [encoded]. *)
Definition encode (text : string) : Handler (list float) :=
  fun st => (inr (model_encode text),
             mkService (index st) (disk st) (encoded st ++ [text])).

(** [index.knn_query(np.array([v]), k=k)], rows 0 of labels and distances. *)
Definition index_knn_query (v : list float) (k : Z) : Handler (list Z * list float) :=
  fun st => match knn_query v k (index st) with
            | inl e => (inl (LibraryError e), st)
            | inr r => (inr r, st)
            end.

(** [index.add_items(np.array([v]), np.array([id]))]. *)
Definition index_add_items (v : list float) (id : Z) : Handler unit :=
  fun st => let '(r, idx) := add_items v id (index st) in
            (match r with inl e => inl (LibraryError e) | inr u => inr u end,
             mkService idx (disk st) (encoded st)).

(** [index.save_index(path)]: the call returns, and the file at [path] is
    what the library left there; no other file is touched. *)
Definition index_save_index (path : string) : Handler unit :=
  fun st => (inr tt,
             mkService (index st) (partial_alter (save_index (index st)) path (disk st))
               (encoded st)).

(** ** The endpoints *)

(** [embed_text] (lines 46-51). [not request.text] holds of the empty string
    only. [emb.tolist()] is the list of the array's elements. *)
Definition embed_text (request : EmbedRequest.t) : Handler (EmbedResponse.t float) :=
  match EmbedRequest.text request with
  | EmptyString => raise (HTTPException 400 "Text cannot be empty."%string)
  | text => emb <- encode text ;; ret (EmbedResponse.mk emb)
  end.

(** The body of the loop of [search_files]: [results.append(SearchResult(...))]. *)
Definition append_result (results : list (SearchResult.t float)) (p : Z * float)
  : list (SearchResult.t float) :=
  results ++ [SearchResult.mk (fst p) (snd p)].

(** [search_files] (lines 54-61). [zip] stops at the shorter of its two
    arguments, as [combine] does. *)
Definition search_files (request : SearchRequest.t) : Handler (SearchResponse.t float) :=
  query_emb <- encode (SearchRequest.query request) ;;
  r <- index_knn_query query_emb (SearchRequest.k request) ;;
  ret (SearchResponse.mk (fold_left append_result (combine (fst r) (snd r)) [])).

(** [add_file] (lines 68-74). *)
Definition add_file (file : FileData.t float) : Handler (FileData.t float) :=
  index_add_items (FileData.embedding file) (FileData.file_id file) ;;;
  index_save_index INDEX_PATH ;;;
  ret file.

(** Module initialisation (lines 32-41): the state the endpoints start from,
    given the files on disk. *)
Definition startup (files : gmap string Blob) : (exn E + unit) * State :=
  let dim := get_sentence_embedding_dimension in
  let index0 := Index_new SPACE dim in
  let '(r, index1) :=
    match files !! INDEX_PATH with
    | Some blob => load_index blob index0
    | None => init_index max_elements EF_CONSTRUCTION M_LINKS index0
    end in
  match r with
  | inl e => (inl (LibraryError e), mkService index1 files [])
  | inr _ => (inr tt, mkService (set_ef EF_RUNTIME index1) files [])
  end.

(** A request to one of the three routes, the answer to it, and the
    dispatch FastAPI performs. *)
Inductive Request :=
  | PostEmbed (request : EmbedRequest.t)
  | PostSearch (request : SearchRequest.t)
  | PostAddFile (file : FileData.t float).

Inductive Response :=
  | Embedded (response : EmbedResponse.t float)
  | Found (response : SearchResponse.t float)
  | Added (response : FileData.t float).

Definition serve (request : Request) : Handler Response :=
  match request with
  | PostEmbed r => response <- embed_text r ;; ret (Embedded response)
  | PostSearch r => response <- search_files r ;; ret (Found response)
  | PostAddFile f => response <- add_file f ;; ret (Added response)
  end.

End Endpoints.

(** ** The server loop *)

Section Sessions.
Context {float E Index Blob : Type}.
Context {model : SentenceTransformer float}.
Context {hnsw : HnswIndex float E Index Blob}.

(** [uvicorn.run(app, ...)] (lines 76-78) with the three handlers: none of
    them awaits, so each request runs to its end before the next one
    starts; a request that raises is answered with an error and the server
    goes on with the state the handler left. *)
Fixpoint serve_all (requests : list (Request (float := float)))
    (st : Service Index Blob)
  : list (exn E + Response (float := float)) * Service Index Blob :=
  match requests with
  | [] => ([], st)
  | request :: rest =>
      let '(out, st1) := serve request st in
      let '(outs, st2) := serve_all rest st1 in
      (out :: outs, st2)
  end.

(** The texts a request hands to [model.encode], in order: the text of an
    [/embed] request unless it is empty, the query of a [/search] request,
    nothing for [/add_file]. *)
Definition model_calls (request : Request (float := float)) : list string :=
  match request with
  | PostEmbed r =>
      match EmbedRequest.text r with
      | EmptyString => []
      | text => [text]
      end
  | PostSearch r => [SearchRequest.query r]
  | PostAddFile _ => []
  end.

(** What one request does to the index in memory: an [/add_file] request
    leaves what the library's [add_items] leaves, raised or not; the other
    two routes leave it alone. *)
Definition index_after (idx : Index) (request : Request (float := float)) : Index :=
  match request with
  | PostAddFile f => snd (add_items (FileData.embedding f) (FileData.file_id f) idx)
  | _ => idx
  end.

End Sessions.

(** ** The index the specification describes

    [hnswlib] is imported, not part of the repository.  What the
    specification says of the index is modelled here, component by
    component: the typed failures (section 7), the vector store (section
    4.1) and the index controller (section 4.4).  The proximity graph and
    the persistence codec stay interfaces of the controller. *)

(** Modelled from the spec: the failures [hnswlib] would raise, as the
    taxonomy of section 7 names them. *)
Inductive IndexError :=
  | DimensionMismatch
  | DuplicateId
  | NotFound
  | InvalidK
  | CapacityExceeded
  | EmbeddingFailed
  | CorruptPersistedState
  | IoFailure.

(** Modelled from the spec: a Vector Store Entry of section 3, (identifier,
    vector, tombstone). *)
Record Entry (float : Type) := mkEntry {
  entry_id : Z;
  entry_vector : list float;
  tombstone : bool
}.
Arguments mkEntry {float} _ _ _.
Arguments entry_id {float} _.
Arguments entry_vector {float} _.
Arguments tombstone {float} _.

(** Modelled from the spec: the Index of section 3 that [hnswlib.Index]
    stands for, (dim, metric, M, ef_construction, ef_search, max_elements,
    Vector Store, Graph); the entry point is kept inside the graph. *)
Record SpecIndex (float Graph : Type) := mkIndex {
  dim : nat;
  metric : string;
  M : nat;
  ef_construction : nat;
  ef_search : nat;
  capacity : nat;
  store : list (Entry float);
  graph : Graph
}.
Arguments mkIndex {float Graph} _ _ _ _ _ _ _ _.
Arguments dim {float Graph} _.
Arguments metric {float Graph} _.
Arguments M {float Graph} _.
Arguments ef_construction {float Graph} _.
Arguments ef_search {float Graph} _.
Arguments capacity {float Graph} _.
Arguments store {float Graph} _.
Arguments graph {float Graph} _.

Section VectorStore.
Context {float : Type}.

Definition is_live (e : Entry float) : bool := negb (tombstone e).

Definition has_live_entry (id : Z) (entries : list (Entry float)) : bool :=
  existsb (fun e => (entry_id e =? id) && is_live e) entries.

(** Modelled from the spec: [put(id, vector)] of section 4.1 for a store of
    dimension [d]. It fails with [DimensionMismatch] if [len(vector) != dim],
    with [DuplicateId] if [id] already has a live entry, and appends the
    entry otherwise. *)
Definition put (d : nat) (id : Z) (v : list float) (entries : list (Entry float))
  : IndexError + list (Entry float) :=
  if negb (Nat.eqb (length v) d) then inl DimensionMismatch
  else if has_live_entry id entries then inl DuplicateId
  else inr (entries ++ [mkEntry id v false]).

(** Modelled from the spec: [count_live()] of section 4.1. *)
Definition count_live (entries : list (Entry float)) : nat :=
  length (filter (fun e => is_live e = true) entries).

End VectorStore.

Section Controller.
Context {float Graph Blob : Type}.

(** The Proximity Graph (section 4.3) as the controller sees it: the empty
    graph, insertion of an identifier with its vector, which may fail, and
    the search for the [k] nearest of a vector with beam width [ef], an
    ordered list of (identifier, distance). Both read the store. *)
Variable graph_empty : Graph.
Variable graph_insert :
  list (Entry float) -> Z -> list float -> Graph -> IndexError + Graph.
Variable graph_search :
  list (Entry float) -> Graph -> nat -> list float -> nat -> list (Z * float).

(** The Persistence Codec (section 4.5) as the controller sees it. *)
Variable codec_encode : SpecIndex float Graph -> Blob.
Variable codec_decode : Blob -> option (SpecIndex float Graph).

Abbreviation Idx := (SpecIndex float Graph).

Definition with_contents (idx : Idx) (entries : list (Entry float)) (g : Graph) : Idx :=
  mkIndex (dim idx) (metric idx) (M idx) (ef_construction idx) (ef_search idx)
    (capacity idx) entries g.

(** Modelled from the spec: [add(id, vector)] of section 4.4. It delegates
    to the store's [put], then to the graph's insertion; an add beyond
    [max_elements] fails with [CapacityExceeded] (section 3); when the graph
    insertion fails the store write is rolled back. A failed add leaves the
    index as it was. *)
Definition add (v : list float) (id : Z) (idx : Idx) : (IndexError + unit) * Idx :=
  match put (dim idx) id v (store idx) with
  | inl e => (inl e, idx)
  | inr entries =>
      if (capacity idx <? length entries)%nat then (inl CapacityExceeded, idx)
      else match graph_insert entries id v (graph idx) with
           | inl e => (inl e, idx)
           | inr g => (inr tt, with_contents idx entries g)
           end
  end.

(** Modelled from the spec: [search(vector, k)] of sections 4.3 and 4.4. It
    fails with [DimensionMismatch] if [len(vector) != dim], with [InvalidK]
    if [k <= 0], and delegates to the graph's search otherwise. *)
Definition search (v : list float) (k : Z) (idx : Idx)
  : IndexError + (list Z * list float) :=
  if negb (Nat.eqb (length v) (dim idx)) then inl DimensionMismatch
  else if k <=? 0 then inl InvalidK
  else let found := graph_search (store idx) (graph idx) (ef_search idx) v (Z.to_nat k) in
       inr (map fst found, map snd found).

(** Modelled from the spec: [save] and [load] of section 4.4. A failed load
    leaves the state it found. *)
Definition save (idx : Idx) : IndexError + Blob := inr (codec_encode idx).

Definition load (blob : Blob) (idx : Idx) : (IndexError + unit) * Idx :=
  match codec_decode blob with
  | Some idx' => (inr tt, idx')
  | None => (inl CorruptPersistedState, idx)
  end.

(** Modelled from the spec: the index [main.py] drives, as the controller
    above. [Index(space, dim)] fixes the metric and the dimension,
    [init_index] the capacity and the construction parameters of an empty
    index, [set_ef] the beam width of searches. *)
Definition controller : HnswIndex float IndexError Idx Blob := {|
  Index_new := fun space d => mkIndex d space 0 0 0 0 [] graph_empty;
  load_index := load;
  init_index := fun cap efc m idx =>
    (inr tt, mkIndex (dim idx) (metric idx) m efc (ef_search idx) cap [] graph_empty);
  set_ef := fun ef idx =>
    mkIndex (dim idx) (metric idx) (M idx) (ef_construction idx) ef (capacity idx)
      (store idx) (graph idx);
  knn_query := search;
  add_items := add;
  save_index := fun idx old =>
    match save idx with
    | inr blob => Some blob
    | inl _ => old
    end
|}.

End Controller.

(** ** A list-backed index and a character-count model

    Test doubles for the two collaborators, used to run the endpoints on
    concrete requests: the index keeps its rows in a list (newest first) and
    answers a query with its first [k] labels, the model maps a text to its
    length. *)

Definition ListIndex : Type := list (Z * list Z).

Definition list_knn_query (v : list Z) (k : Z) (idx : ListIndex)
  : string + (list Z * list Z) :=
  if k <=? 0 then inl "k must be positive"%string
  else let rows := take (Z.to_nat k) idx in
       inr (map fst rows, map (fun _ => 0) rows).

#[local] Instance list_index : HnswIndex Z string ListIndex ListIndex := {|
  Index_new := fun _ _ => [];
  load_index := fun blob _ => (inr tt, blob);
  init_index := fun _ _ _ idx => (inr tt, idx);
  set_ef := fun _ idx => idx;
  knn_query := list_knn_query;
  add_items := fun v id idx => (inr tt, (id, v) :: idx);
  save_index := fun idx _ => Some idx
|}.

(** A second test double: it rejects a negative label, and it writes to a
    disk with room for two rows, where a longer index is cut off after the
    second row and, as with the library's stream, nobody is told. *)
Definition strict_index : HnswIndex Z string ListIndex ListIndex := {|
  Index_new := fun _ _ => [];
  load_index := fun blob _ => (inr tt, blob);
  init_index := fun _ _ _ idx => (inr tt, idx);
  set_ef := fun _ idx => idx;
  knn_query := list_knn_query;
  add_items := fun v id idx =>
    if id <? 0 then (inl "negative label"%string, idx) else (inr tt, (id, v) :: idx);
  save_index := fun idx _ => Some (take 2 idx)
|}.

#[local] Instance length_model : SentenceTransformer Z := {|
  model_encode := fun text => [Z.of_nat (String.length text)];
  get_sentence_embedding_dimension := 1
|}.

(** ** Properties of the endpoints *)

Section EndpointFacts.
Context {float E Index Blob : Type}.
Context {model : SentenceTransformer float}.
Context {hnsw : HnswIndex float E Index Blob}.

Abbreviation St := (Service Index Blob).

(** The append loop of [search_files] builds the list of results in the
    order of the pairs it walks. *)
Lemma fold_append_result (ps : list (Z * float)) (acc : list (SearchResult.t float)) :
  fold_left append_result ps acc
  = acc ++ map (fun p => SearchResult.mk (fst p) (snd p)) ps.
Proof.
  revert acc. induction ps as [|p ps IH]; intros acc; simpl.
  - by rewrite app_nil_r.
  - rewrite IH. unfold append_result. by rewrite <- app_assoc.
Qed.

(** [search_files] encodes the query once, asks the index for [k] neighbours
    and answers with one result per (label, distance) pair, in the index's
    order; it never touches the index or the disk. *)
Lemma search_files_run (request : SearchRequest.t) (st : St) :
  let q := SearchRequest.query request in
  let st' := mkService (index st) (disk st) (encoded st ++ [q]) in
  search_files request st =
  match knn_query (model_encode q) (SearchRequest.k request) (index st) with
  | inl e => (inl (LibraryError e), st')
  | inr (labels, distances) =>
      (inr (SearchResponse.mk
              (map (fun p => SearchResult.mk (fst p) (snd p)) (combine labels distances))),
       st')
  end.
Proof.
  unfold search_files, bind, encode, index_knn_query, ret; simpl.
  destruct (knn_query _ _ _) as [e|[labels distances]]; simpl; [done|].
  by rewrite fold_append_result.
Qed.

(** [add_file] step by step: the library's [add_items] runs first and its
    failure ends the request; when it returns, [save_index] is called on
    the index it left, for [vector_index.bin], and the request is echoed. *)
Lemma add_file_run (file : FileData.t float) (st : St) :
  add_file file st =
  let '(r, idx) := add_items (FileData.embedding file) (FileData.file_id file) (index st) in
  match r with
  | inl e => (inl (LibraryError e), mkService idx (disk st) (encoded st))
  | inr _ =>
      (inr file,
       mkService idx (partial_alter (save_index idx) INDEX_PATH (disk st)) (encoded st))
  end.
Proof.
  unfold add_file, bind, index_add_items, index_save_index, ret.
  by destruct (add_items _ _ _) as [[e|[]] idx].
Qed.

(** X9. An [add_file] that raises has written nothing: every file on disk,
    [vector_index.bin] included, is what it was before the request.  The
    handler raises at [add_items] only, before the save is reached. *)
Lemma add_file_raise_keeps_disk (file : FileData.t float) (st st' : St) (e : exn E) :
  add_file file st = (inl e, st') -> disk st' = disk st.
Proof.
  rewrite add_file_run.
  destruct (add_items _ _ _) as [[e'|[]] idx]; [by intros [= _ <-]|done].
Qed.

(** C9. [embed_text] on the empty text raises [HTTPException] with status 400
    and leaves the state as it was, the log of texts handed to the model
    included: the model is not called. On any other text it calls the model
    once, on that text, and answers with the model's encoding as a list. *)
Theorem embed_text_empty_or_encoding :
  (forall st : St,
     embed_text (E := E) (EmbedRequest.mk EmptyString) st
     = (inl (HTTPException 400 "Text cannot be empty."%string), st))
  /\
  (forall (c : Ascii.ascii) (s : string) (st : St),
     let text := String c s in
     embed_text (E := E) (EmbedRequest.mk text) st
     = (inr (EmbedResponse.mk (model_encode text)),
        mkService (index st) (disk st) (encoded st ++ [text]))).
Proof. split; reflexivity. Qed.

(** C10, amended. When [add_file] returns, its response is the [FileData] it
    was given; [add_items] had accepted the item, and [save_index] was then
    called on the index it left, which is the index of the state the
    endpoint leaves behind, for [vector_index.bin]: that file is what the
    save left of it, every other file is as it was, and the model is not
    called. *)
Theorem add_file_saves_then_echoes (file resp : FileData.t float) (st st' : St) :
  add_file file st = (inr resp, st') ->
  resp = file /\
  add_items (FileData.embedding file) (FileData.file_id file) (index st)
    = (inr tt, index st') /\
  disk st' = partial_alter (save_index (index st')) INDEX_PATH (disk st) /\
  disk st' !! INDEX_PATH = save_index (index st') (disk st !! INDEX_PATH) /\
  (forall path : string, path <> INDEX_PATH -> disk st' !! path = disk st !! path) /\
  encoded st' = encoded st.
Proof.
  rewrite add_file_run.
  destruct (add_items _ _ _) as [[e|[]] idx] eqn:Hadd; [done|].
  intros [= <- <-]; simpl. repeat split; try done.
  - by rewrite lookup_partial_alter_eq.
  - intros path Hpath. by rewrite lookup_partial_alter_ne.
Qed.

(** [embed_text] and [search_files] read the index and never write: the
    index and every file are the same after the call, whatever its outcome. *)
Lemma embed_text_read_only (request : EmbedRequest.t) (st : St) :
  let st' := snd (embed_text (E := E) request st) in
  index st' = index st /\ disk st' = disk st.
Proof. unfold embed_text. by destruct (EmbedRequest.text request). Qed.

Lemma search_files_read_only (request : SearchRequest.t) (st : St) :
  let st' := snd (search_files request st) in
  index st' = index st /\ disk st' = disk st.
Proof.
  simpl. pose proof (search_files_run request st) as Hrun. simpl in Hrun.
  rewrite Hrun. by destruct (knn_query _ _ _) as [e|[labels distances]].
Qed.

(** [add_file] never calls the model. *)
Lemma add_file_no_encode (file : FileData.t float) (st : St) :
  encoded (snd (add_file file st)) = encoded st.
Proof.
  rewrite add_file_run.
  by destruct (add_items _ _ _) as [[e|[]] idx].
Qed.

End EndpointFacts.

(** C10 on the list-backed index: adding file 7 to an empty service. *)
Lemma add_file_saves_then_echoes_witness :
  let file := FileData.mk 7 [3; 4] in
  let st : Service ListIndex ListIndex := mkService [] ∅ [] in
  let st' := mkService [(7, [3; 4])] {[ INDEX_PATH := [(7, [3; 4])] ]} [] in
  add_file file st = (inr file, st') /\
  (file = file /\
   add_items (FileData.embedding file) (FileData.file_id file) (index st)
     = (inr tt, index st') /\
   disk st' = partial_alter (save_index (index st')) INDEX_PATH (disk st) /\
   disk st' !! INDEX_PATH = save_index (index st') (disk st !! INDEX_PATH) /\
   (forall path : string, path <> INDEX_PATH -> disk st' !! path = disk st !! path) /\
   encoded st' = encoded st).
Proof.
  split; [reflexivity|].
  apply (add_file_saves_then_echoes (FileData.mk 7 [3; 4]) (FileData.mk 7 [3; 4])
           (mkService [] ∅ []) (mkService [(7, [3; 4])] {[ INDEX_PATH := [(7, [3; 4])] ]} [])).
  reflexivity.
Defined.

(** C10 as stated fails on the disk with room for two rows: the third file
    is added and the request is answered with the file echoed, but
    [vector_index.bin] holds two of the three rows, not the whole updated
    index. *)
Lemma add_file_answers_with_truncated_file :
  let file := FileData.mk 3 [3] in
  let old : ListIndex := [(2, [2]); (1, [1])] in
  let st : Service ListIndex ListIndex := mkService old {[ INDEX_PATH := old ]} [] in
  let st' := snd (add_file (hnsw := strict_index) file st) in
  fst (add_file (hnsw := strict_index) file st) = inr file /\
  index st' = [(3, [3]); (2, [2]); (1, [1])] /\
  disk st' !! INDEX_PATH = Some [(3, [3]); (2, [2])] /\
  disk st' !! INDEX_PATH <> Some (index st').
Proof. repeat split; [reflexivity..|discriminate]. Qed.

(** ** The controller of the specification behind [add_file] *)

Section ControllerFacts.
Context {float Graph Blob : Type}.
Variable graph_empty : Graph.
Variable graph_insert :
  list (Entry float) -> Z -> list float -> Graph -> IndexError + Graph.
Variable graph_search :
  list (Entry float) -> Graph -> nat -> list float -> nat -> list (Z * float).
Variable codec_encode : SpecIndex float Graph -> Blob.
Variable codec_decode : Blob -> option (SpecIndex float Graph).

Abbreviation Ix := (SpecIndex float Graph).

Abbreviation the_controller :=
  (controller graph_empty graph_insert graph_search codec_encode codec_decode).

(** The dimension is checked before anything else. *)
Lemma put_dimension_mismatch (d : nat) (id : Z) (v : list float) (entries : list (Entry float)) :
  length v <> d -> put d id v entries = inl DimensionMismatch.
Proof.
  intros Hlen. unfold put.
  destruct (Nat.eqb_spec (length v) d) as [Heq|Hne]; [by destruct Hlen|done].
Qed.

(** What [put] stores is the vector it was given, at its full length. *)
Lemma put_stores_vector_as_given (d : nat) (id : Z) (v : list float)
    (entries entries' : list (Entry float)) :
  put d id v entries = inr entries' ->
  length v = d /\ entries' = entries ++ [mkEntry id v false].
Proof.
  unfold put. destruct (Nat.eqb_spec (length v) d) as [Heq|Hne]; simpl; [|done].
  destruct (has_live_entry id entries); [done|]. by intros [= <-].
Qed.

(** The controller's [add] gives up on a vector of the wrong length with
    the index untouched. *)
Lemma add_dimension_mismatch (v : list float) (id : Z) (idx : Ix) :
  length v <> dim idx ->
  add graph_insert v id idx = (inl DimensionMismatch, idx).
Proof.
  intros Hlen. unfold add. by rewrite put_dimension_mismatch.
Qed.

(** C5. [add_file] with an embedding whose length differs from the index
    dimension fails with [DimensionMismatch]; the state it leaves is the
    state it found: the same store, entry for entry, hence the same live
    count, the same graph, and the same file on disk. *)
Theorem add_file_dimension_mismatch (file : FileData.t float) (st : Service Ix Blob) :
  length (FileData.embedding file) <> dim (index st) ->
  add_file (hnsw := the_controller) file st = (inl (LibraryError DimensionMismatch), st) /\
  let st' := snd (add_file (hnsw := the_controller) file st) in
  store (index st') = store (index st) /\
  count_live (store (index st')) = count_live (store (index st)) /\
  graph (index st') = graph (index st) /\
  disk st' = disk st.
Proof.
  intros Hlen.
  assert (add_file (hnsw := the_controller) file st
          = (inl (LibraryError DimensionMismatch), st)) as Hrun.
  { rewrite add_file_run. simpl.
    rewrite (add_dimension_mismatch _ _ _ Hlen). by destruct st. }
  split; [exact Hrun|]. by rewrite Hrun.
Qed.

End ControllerFacts.

(** C5 on a dim=4 index holding one vector: a vector of length 3 is refused. *)
Lemma add_file_dimension_mismatch_witness :
  let idx : SpecIndex Z (list Z) :=
    mkIndex 4 SPACE M_LINKS EF_CONSTRUCTION EF_RUNTIME max_elements
      [mkEntry 1 [1; 0; 0; 0] false] [1] in
  let st : Service (SpecIndex Z (list Z)) (SpecIndex Z (list Z)) := mkService idx ∅ [] in
  let file := FileData.mk 2 [1; 0; 0] in
  let run := add_file
    (hnsw := controller [] (fun _ id _ g => inr (id :: g)) (fun _ _ _ _ _ => [])
               (fun i => i) Some) file st in
  length (FileData.embedding file) <> dim (index st) /\
  (run = (inl (LibraryError DimensionMismatch), st) /\
   let st' := snd run in
   store (index st') = store (index st) /\
   count_live (store (index st')) = count_live (store (index st)) /\
   graph (index st') = graph (index st) /\
   disk st' = disk st).
Proof.
  split; [simpl; lia|].
  apply (add_file_dimension_mismatch [] (fun _ id _ g => inr (id :: g))
           (fun _ _ _ _ _ => []) (fun i => i) Some).
  simpl; lia.
Defined.

(** ** More of the service: what the endpoints do over a run of requests *)

Section Coverage.
Context {float E Index Blob : Type}.
Context {model : SentenceTransformer float}.
Context {hnsw : HnswIndex float E Index Blob}.

Abbreviation Sv := (Service Index Blob).
Abbreviation Req := (Request (float := float)).
Abbreviation Resp := (Response (float := float)).

(** Position by position, the results built from two rows are the rows. *)
Lemma results_lookup (labels : list Z) (distances : list float) (i : nat)
    (r : SearchResult.t float) :
  map (fun p => SearchResult.mk (fst p) (snd p)) (combine labels distances) !! i = Some r <->
  labels !! i = Some (SearchResult.file_id r) /\
  distances !! i = Some (SearchResult.distance r).
Proof.
  revert distances i.
  induction labels as [|l labels IH]; intros [|d distances] [|i]; simpl;
    try (split; [done|by intros [? ?]]).
  - destruct r as [id dist]; simpl. split; [by intros [= <- <-]|by intros [[= <-] [= <-]]].
  - apply IH.
Qed.

(** X1. An answered [search_files] carries the index's answer for the
    encoded query and the requested [k]: as many results as the shorter of
    the two rows, the i-th result being exactly the i-th label with the i-th
    distance. *)
Theorem search_files_results_follow_index (request : SearchRequest.t)
    (response : SearchResponse.t float) (st st' : Sv) :
  search_files request st = (inr response, st') ->
  exists labels distances,
    knn_query (model_encode (SearchRequest.query request)) (SearchRequest.k request) (index st)
      = inr (labels, distances) /\
    length (SearchResponse.results response) = Nat.min (length labels) (length distances) /\
    forall (i : nat) (r : SearchResult.t float),
      SearchResponse.results response !! i = Some r <->
      labels !! i = Some (SearchResult.file_id r) /\
      distances !! i = Some (SearchResult.distance r).
Proof.
  pose proof (search_files_run request st) as Hrun. simpl in Hrun. rewrite Hrun.
  destruct (knn_query _ _ _) as [e|[labels distances]]; [done|].
  intros [= <- _]. exists labels, distances. simpl.
  split; [done|]. split.
  - by rewrite length_map, length_combine.
  - intros i r. apply results_lookup.
Qed.

(** X2. [/embed] and [/search] only read: whatever the request and whether
    it is answered or raises, the index in memory and every file on disk are
    afterwards what they were. *)
Theorem embed_and_search_only_read :
  (forall (request : EmbedRequest.t) (st : Sv),
     let st' := snd (serve (E := E) (PostEmbed request) st) in
     index st' = index st /\ disk st' = disk st) /\
  (forall (request : SearchRequest.t) (st : Sv),
     let st' := snd (serve (PostSearch request) st) in
     index st' = index st /\ disk st' = disk st).
Proof.
  split; intros request st; simpl; unfold bind.
  - pose proof (embed_text_read_only (E := E) request st) as H; simpl in H.
    by destruct (embed_text request st) as [[e|a] st1].
  - pose proof (search_files_read_only request st) as H; simpl in H.
    by destruct (search_files request st) as [[e|a] st1].
Qed.

(** One request leaves every file but [vector_index.bin] alone. *)
Lemma serve_other_files (request : Req) (st : Sv) (path : string) :
  path <> INDEX_PATH ->
  disk (snd (serve request st)) !! path = disk st !! path.
Proof.
  intros Hpath. destruct request as [r|r|f]; simpl; unfold bind.
  - pose proof (embed_text_read_only (E := E) r st) as [_ Hd]; simpl in Hd.
    destruct (embed_text r st) as [[e|a] st1]; simpl in *; by rewrite Hd.
  - pose proof (search_files_read_only r st) as [_ Hd]; simpl in Hd.
    destruct (search_files r st) as [[e|a] st1]; simpl in *; by rewrite Hd.
  - rewrite add_file_run.
    destruct (add_items _ _ _) as [[e|[]] idx]; [done|]. simpl.
    by rewrite lookup_partial_alter_ne.
Qed.

(** X3. Whatever requests the server handles and however they end, the only
    file it ever writes is [vector_index.bin]: every other path holds
    afterwards what it held before, or is still absent. *)
Theorem serve_all_other_files (requests : list Req) (st : Sv) (path : string) :
  path <> INDEX_PATH ->
  disk (snd (serve_all requests st)) !! path = disk st !! path.
Proof.
  intros Hpath. revert st. induction requests as [|request rest IH]; intros st; simpl; [done|].
  pose proof (serve_other_files request st path Hpath) as Hstep.
  destruct (serve request st) as [out st1]. simpl in Hstep.
  specialize (IH st1). destruct (serve_all rest st1) as [outs st2]. simpl in *.
  by rewrite IH.
Qed.

(** X4. The handlers add one failure of their own and no other: the 400 of
    [/embed] on the empty text, which leaves the state untouched.  [/search]
    has no guard: for every query, the empty one included, it raises exactly
    when the index's [knn_query] raises on the encoded query, with that
    error, and otherwise answers with the rows it got.  [/add_file] raises
    exactly when [add_items] raises, with that error, and otherwise echoes
    the file. *)
Theorem handlers_fail_as_the_index_does :
  (forall (request : Req) (st st' : Sv) (status_code : Z) (detail : string),
     serve request st = (inl (HTTPException status_code detail), st') ->
     request = PostEmbed (EmbedRequest.mk EmptyString) /\
     status_code = 400 /\ detail = "Text cannot be empty."%string /\ st' = st) /\
  (forall (request : SearchRequest.t) (st : Sv),
     fst (search_files request st) =
     match knn_query (model_encode (SearchRequest.query request))
             (SearchRequest.k request) (index st) with
     | inl e => inl (LibraryError e)
     | inr (labels, distances) =>
         inr (SearchResponse.mk
                (map (fun p => SearchResult.mk (fst p) (snd p)) (combine labels distances)))
     end) /\
  (forall (file : FileData.t float) (st : Sv),
     fst (add_file file st) =
     match fst (add_items (FileData.embedding file) (FileData.file_id file) (index st)) with
     | inl e => inl (LibraryError e)
     | inr _ => inr file
     end).
Proof.
  split; [|split].
  - intros request st st' status_code detail.
    destruct request as [[text]|r|f]; unfold serve, bind.
    + destruct text as [|c s]; simpl; [by intros [= <- <- <-]|done].
    + pose proof (search_files_run r st) as Hrun. simpl in Hrun. rewrite Hrun.
      by destruct (knn_query _ _ _) as [e|[labels distances]].
    + rewrite add_file_run.
      by destruct (add_items _ _ _) as [[e|[]] idx].
  - intros request st.
    pose proof (search_files_run request st) as Hrun. simpl in Hrun. rewrite Hrun.
    by destruct (knn_query _ _ _) as [e|[labels distances]].
  - intros file st. rewrite add_file_run.
    by destruct (add_items _ _ _) as [[e|[]] idx].
Qed.

(** One request calls the model on the texts [model_calls] lists. *)
Lemma serve_model_calls (request : Req) (st : Sv) :
  encoded (snd (serve request st)) = encoded st ++ model_calls request.
Proof.
  destruct request as [[text]|r|f]; simpl; unfold bind.
  - destruct text as [|c s]; simpl; [by rewrite app_nil_r|done].
  - pose proof (search_files_run r st) as Hrun. simpl in Hrun. rewrite Hrun.
    by destruct (knn_query _ _ _) as [e|[labels distances]].
  - pose proof (add_file_no_encode f st) as Hlog.
    destruct (add_file f st) as [[e|a] st1]; simpl in *; by rewrite Hlog, app_nil_r.
Qed.

(** X5. Over any run of requests the model is called once per non-empty
    [/embed] text and once per [/search] query, in the order of the
    requests, also for a search the index then refuses; [/add_file] and an
    empty [/embed] never call it. *)
Theorem serve_all_model_calls (requests : list Req) (st : Sv) :
  encoded (snd (serve_all requests st))
  = encoded st ++ concat (map model_calls requests).
Proof.
  revert st. induction requests as [|request rest IH]; intros st; simpl.
  - by rewrite app_nil_r.
  - pose proof (serve_model_calls request st) as Hstep.
    destruct (serve request st) as [out st1]. simpl in Hstep.
    specialize (IH st1). destruct (serve_all rest st1) as [outs st2]. simpl in *.
    by rewrite IH, Hstep, app_assoc.
Qed.

(** One request changes the index as [index_after] says. *)
Lemma serve_index_after (request : Req) (st : Sv) :
  index (snd (serve request st)) = index_after (index st) request.
Proof.
  destruct request as [r|r|f]; simpl; unfold bind.
  - pose proof (embed_text_read_only (E := E) r st) as [Hi _]; simpl in Hi.
    by destruct (embed_text r st) as [[e|a] st1].
  - pose proof (search_files_read_only r st) as [Hi _]; simpl in Hi.
    by destruct (search_files r st) as [[e|a] st1].
  - rewrite add_file_run.
    by destruct (add_items _ _ _) as [[e|[]] idx].
Qed.

(** X10. The index in memory after any run of requests is the index before
    it with the library's [add_items] applied once per [/add_file] request,
    in order, to that request's embedding and id; nothing else the service
    does touches it: no embed, no search, no failed save, and no endpoint
    resizes, reloads or re-initialises it. *)
Theorem serve_all_index_is_the_adds (requests : list Req) (st : Sv) :
  index (snd (serve_all requests st)) = fold_left index_after requests (index st).
Proof.
  revert st. induction requests as [|request rest IH]; intros st; simpl; [done|].
  pose proof (serve_index_after request st) as Hstep.
  destruct (serve request st) as [out st1]. simpl in Hstep.
  specialize (IH st1). destruct (serve_all rest st1) as [outs st2]. simpl in *.
  by rewrite IH, Hstep.
Qed.

End Coverage.

(** ** The coverage properties on the test doubles *)

(** X1 on the list-backed index: two rows stored, two neighbours asked. *)
Lemma search_files_results_follow_index_witness :
  let request := SearchRequest.mk "ab"%string 2 in
  let st : Service ListIndex ListIndex := mkService [(7, [3; 4]); (5, [1; 2])] ∅ [] in
  let response := SearchResponse.mk [SearchResult.mk 7 0; SearchResult.mk 5 0] in
  let st' := mkService [(7, [3; 4]); (5, [1; 2])] ∅ ["ab"%string] in
  search_files request st = (inr response, st') /\
  exists labels distances,
    knn_query (model_encode (SearchRequest.query request)) (SearchRequest.k request) (index st)
      = inr (labels, distances) /\
    length (SearchResponse.results response) = Nat.min (length labels) (length distances) /\
    forall (i : nat) (r : SearchResult.t Z),
      SearchResponse.results response !! i = Some r <->
      labels !! i = Some (SearchResult.file_id r) /\
      distances !! i = Some (SearchResult.distance r).
Proof.
  split; [reflexivity|].
  apply (search_files_results_follow_index (SearchRequest.mk "ab"%string 2)
           (SearchResponse.mk [SearchResult.mk 7 0; SearchResult.mk 5 0])
           (mkService [(7, [3; 4]); (5, [1; 2])] ∅ [])
           (mkService [(7, [3; 4]); (5, [1; 2])] ∅ ["ab"%string])).
  reflexivity.
Defined.

(** X3 on the list-backed index: an add and a search next to a file of
    notes. *)
Lemma serve_all_other_files_witness :
  let requests :=
    [PostAddFile (FileData.mk 7 [3; 4]); PostSearch (SearchRequest.mk "ab"%string 2)] in
  let st : Service ListIndex ListIndex :=
    mkService [] {[ "notes.txt"%string := [(1, [1])] ]} [] in
  "notes.txt"%string <> INDEX_PATH /\
  disk (snd (serve_all requests st)) !! "notes.txt"%string = disk st !! "notes.txt"%string.
Proof.
  split; [discriminate|].
  apply (serve_all_other_files
           [PostAddFile (FileData.mk 7 [3; 4]); PostSearch (SearchRequest.mk "ab"%string 2)]
           (mkService [] {[ "notes.txt"%string := [(1, [1])] ]} []) "notes.txt"%string).
  discriminate.
Defined.

(** X4 on the list-backed index: the empty text is refused by [/embed],
    while the empty query is answered by [/search]. *)
Lemma handlers_fail_as_the_index_does_witness :
  let st : Service ListIndex ListIndex := mkService [(7, [3; 4])] ∅ [] in
  serve (E := string) (PostEmbed (float := Z) (EmbedRequest.mk EmptyString)) st
    = (inl (HTTPException 400 "Text cannot be empty."%string), st) /\
  fst (search_files (SearchRequest.mk EmptyString 1) st)
    = inr (SearchResponse.mk [SearchResult.mk 7 0]).
Proof.
  pose proof (handlers_fail_as_the_index_does (model := length_model) (hnsw := list_index))
    as (_ & Hsearch & _).
  split; [reflexivity|].
  rewrite (Hsearch (SearchRequest.mk EmptyString 1) (mkService [(7, [3; 4])] ∅ [])).
  reflexivity.
Defined.

(** X9 on the second test double: a negative label is refused by
    [add_items], and the file saved before is still there. *)
Lemma add_file_raise_keeps_disk_witness :
  let file := FileData.mk (-1) [1] in
  let old : ListIndex := [(2, [2]); (1, [1])] in
  let st : Service ListIndex ListIndex := mkService old {[ INDEX_PATH := old ]} [] in
  add_file (hnsw := strict_index) file st = (inl (LibraryError "negative label"%string), st) /\
  disk st = disk st.
Proof.
  split; [reflexivity|].
  apply (add_file_raise_keeps_disk (hnsw := strict_index) (FileData.mk (-1) [1])
           (mkService [(2, [2]); (1, [1])] {[ INDEX_PATH := [(2, [2]); (1, [1])] ]} [])
           (mkService [(2, [2]); (1, [1])] {[ INDEX_PATH := [(2, [2]); (1, [1])] ]} [])
           (LibraryError "negative label"%string)).
  reflexivity.
Defined.
